(** * The document APIs of the DOC service (services/doc/api/document.go)

    A shallow embedding of the seven operations of [document.go] and the
    properties of the requests they build and of the results they return.

    Every operation builds one [bce.BceRequest], hands it to the client's
    [SendRequest] and dispatches on the response.  The client is an interface
    value: calling it is an effect.  The operations are therefore written in
    a small state monad whose state holds the client and the trace of the
    calls made to the collaborators. *)

From Stdlib Require Import ZArith String Ascii List DecimalString.
From stdpp Require Import base option gmap strings.

Local Open Scope Z_scope.
Local Open Scope string_scope.

(** ** Go's standard library *)

Module strconv.

(** [strconv.FormatBool] *)
Definition FormatBool (b : bool) : string :=
  if b then "true" else "false".

(** [strconv.FormatInt(i, 10)]: the decimal digits of [i], with a leading
    minus sign when [i] is negative. *)
Definition FormatInt (i : Z) : string :=
  NilZero.string_of_int (Z.to_int i).

End strconv.

Module fmt.

(** [fmt.Sprintf("/v2/document/%s", documentId)]: the only format the file
    uses, one [%s] verb at the end of the template. *)
Definition Sprintf_s (prefix arg : string) : string := prefix ++ arg.

End fmt.

(** ** Errors *)

(** Modelled from the spec: [bce.BceServiceError] is not in src/.  The
    service error envelope carries a code, a message and a request id. *)
Record BceServiceError := {
  Code : string;
  Message : string;
  RequestId : string;
}.

(** The values of Go's [error] interface that reach the callers of this
    file.  A [*BceServiceError] stored in an [error] is an error value even
    when the pointer is nil. *)
Inductive error :=
  | errors_New (text : string)
  | service_error (e : option BceServiceError)
  | collaborator_error (text : string).

(** ** The [http] and [bce] packages *)

Module http.

(** Modelled from the spec: the constants of the [http] package are not in
    src/.  The wire contract names the methods POST, PUT, GET and DELETE and
    the header Content-Type. *)
Definition GET : string := "GET".
Definition PUT : string := "PUT".
Definition POST : string := "POST".
Definition DELETE : string := "DELETE".
Definition CONTENT_TYPE : string := "Content-Type".

End http.

(** Modelled from the spec: [bce.Body] and [bce.NewBodyFromString] are not in
    src/.  A body holds the string it was made from and its length; building
    one from a string held in memory reports no error. *)
Record Body := {
  stream : string;
  size : Z;
}.

Definition NewBodyFromString (str : string) : option Body * option error :=
  (Some {| stream := str; size := Z.of_nat (String.length str) |}, None).

(** Modelled from the spec: [bce.BceRequest] is not in src/.  A request
    descriptor has a URI, query parameters, a method, headers and an optional
    body; each setter overwrites its field, [SetParam] and [SetHeader] store
    one key of a map. *)
Record BceRequest := {
  req_uri : string;
  req_params : gmap string string;
  req_method : string;
  req_headers : gmap string string;
  req_body : option Body;
}.

(** [&bce.BceRequest{}] *)
Definition new_BceRequest : BceRequest :=
  {| req_uri := ""; req_params := ∅; req_method := "";
     req_headers := ∅; req_body := None |}.

Definition SetUri (uri : string) (req : BceRequest) : BceRequest :=
  {| req_uri := uri; req_params := req_params req;
     req_method := req_method req; req_headers := req_headers req;
     req_body := req_body req |}.

Definition SetParam (name value : string) (req : BceRequest) : BceRequest :=
  {| req_uri := req_uri req; req_params := <[name := value]> (req_params req);
     req_method := req_method req; req_headers := req_headers req;
     req_body := req_body req |}.

Definition SetMethod (method : string) (req : BceRequest) : BceRequest :=
  {| req_uri := req_uri req; req_params := req_params req;
     req_method := method; req_headers := req_headers req;
     req_body := req_body req |}.

Definition SetHeader (name value : string) (req : BceRequest) : BceRequest :=
  {| req_uri := req_uri req; req_params := req_params req;
     req_method := req_method req;
     req_headers := <[name := value]> (req_headers req);
     req_body := req_body req |}.

Definition SetBody (body : option Body) (req : BceRequest) : BceRequest :=
  {| req_uri := req_uri req; req_params := req_params req;
     req_method := req_method req; req_headers := req_headers req;
     req_body := body |}.

(** Modelled from the spec: [bce.BceResponse] is not in src/.  The response
    holder reports success or failure through its status, carries the decoded
    service error envelope of a failure, and a JSON body decoded on demand. *)
Record BceResponse := {
  resp_fail : bool;
  resp_serviceError : option BceServiceError;
  resp_body : string;
}.

(** [&bce.BceResponse{}] *)
Definition new_BceResponse : BceResponse :=
  {| resp_fail := false; resp_serviceError := None; resp_body := "" |}.

Definition IsFail (resp : BceResponse) : bool := resp_fail resp.

Definition ServiceError (resp : BceResponse) : option BceServiceError :=
  resp_serviceError resp.

(** ** The parameter objects of the operations (model.go) *)

(** Modelled from the spec: the parameter records are not in src/; their
    fields are the ones [document.go] reads. *)
Record RegDocumentParam := {
  Title : string;
  Format : string;
}.

Record QueryDocumentParam := {
  Https : bool;
}.

Record ReadDocumentParam := {
  ExpireInSeconds : Z;
}.

Record ListDocumentsParam := {
  Status : string;
  Marker : string;
  MaxSize : Z;
}.

(** ** Effects: the client, the trace and panics *)

(** What a Go call ends in: a return, or a run-time panic. *)
Inductive res (A : Type) :=
  | Ret (a : A)
  | Panic (msg : string).
Arguments Ret {A} a.
Arguments Panic {A} msg.

(** The calls an operation makes to its collaborators, in order. *)
Inductive event :=
  | EvCheck (listParam : option ListDocumentsParam)
  | EvSendRequest (req : BceRequest)
  | EvParseJsonBody (resp : BceResponse).

Record World (C : Type) := {
  client : C;
  trace : list event;
}.
Arguments client {C} w.
Arguments trace {C} w.

Definition log {C : Type} (e : event) (cli : C) (w : World C) : World C :=
  {| client := cli; trace := (trace w ++ [e])%list |}.

Definition M (C A : Type) : Type := World C → res A * World C.

#[global] Instance M_ret {C} : MRet (M C) := λ A a w, (Ret a, w).

#[global] Instance M_bind {C} : MBind (M C) := λ A B f m w,
  match m w with
  | (Ret a, w') => f a w'
  | (Panic msg, w') => (Panic msg, w')
  end.

Definition panic {C A} (msg : string) : M C A := λ w, (Panic msg, w).

(** Reading a field through a pointer: a nil pointer panics. *)
Definition deref {C A} (p : option A) : M C A :=
  match p with
  | Some a => mret a
  | None => panic "invalid memory address or nil pointer dereference"
  end.

(** The [bce.Client] interface: [SendRequest(req, resp)] fills the response
    holder and returns an error or nil; the client may change its own state. *)
Class Client (C : Type) :=
  SendRequest : C → BceRequest → BceResponse → option error * BceResponse * C.

(** [bce.DEFAULT_CONTENT_TYPE], a constant of the [bce] package that is not
    in src/: any fixed string. *)
Class BceConstants :=
  DEFAULT_CONTENT_TYPE : string.

(** The codec behind [resp.ParseJsonBody(result)], per result type: decoding
    writes into the result and returns an error or nil. *)
Class JsonResult (T : Type) := {
  zero_value : T;
  json_Decode : string → T → T * option error;
}.

(** [regParam.String()] of model.go: the serialized parameter object and an
    error or nil. *)
Class ParamCodec :=
  RegDocumentParam_String : RegDocumentParam → string * option error.

(** [listParam.Check()] of model.go, called through a pointer that may be
    nil: it returns an error or nil, or panics. *)
Class ParamCheck :=
  Check : option ListDocumentsParam → res (option error).

Definition call_SendRequest {C} `{!Client C} (req : BceRequest)
    (resp : BceResponse) : M C (option error * BceResponse) := λ w,
  let '(err, resp', cli') := SendRequest (client w) req resp in
  (Ret (err, resp'), log (EvSendRequest req) cli' w).

Definition ParseJsonBody {C T} `{!JsonResult T} (resp : BceResponse)
    (result : T) : M C (T * option error) := λ w,
  (Ret (json_Decode (resp_body resp) result),
   log (EvParseJsonBody resp) (client w) w).

Definition call_Check {C} `{!ParamCheck} (listParam : option ListDocumentsParam)
    : M C (option error) := λ w,
  (Check listParam, log (EvCheck listParam) (client w) w).


(** ** Reading a trace *)

(** The requests handed to [SendRequest], in order. *)
Fixpoint sent (t : list event) : list BceRequest :=
  match t with
  | [] => []
  | EvSendRequest req :: t' => req :: sent t'
  | _ :: t' => sent t'
  end.

(** The responses whose JSON body was parsed, in order. *)
Fixpoint parsed (t : list event) : list BceResponse :=
  match t with
  | [] => []
  | EvParseJsonBody resp :: t' => resp :: parsed t'
  | _ :: t' => parsed t'
  end.

(** Run from [w], the operation [m] hands exactly one request to the
    transport, and that request satisfies [P]. *)
Definition builds {C A} (m : M C A) (w : World C) (P : BceRequest → Prop)
    : Prop :=
  ∃ req, sent (trace (m w).2) = (sent (trace w) ++ [req])%list ∧ P req.

(** Run from [w], the operation [m] hands exactly one request to the
    transport; whenever the transport answers that request without an error
    of its own and with a response that is a failure, [m] returns [nil_with]
    the service error of that response and parses no body. *)
Definition surfaces_service_error {C A} `{!Client C} (m : M C A) (w : World C)
    (nil_with : error → A) : Prop :=
  ∃ req, sent (trace (m w).2) = (sent (trace w) ++ [req])%list ∧
    ∀ resp cli',
      SendRequest (client w) req new_BceResponse = (None, resp, cli') →
      IsFail resp = true →
      (m w).1 = Ret (nil_with (service_error (ServiceError resp))) ∧
      parsed (trace (m w).2) = parsed (trace w).

(** [Some v] when the condition holds, [None] otherwise: the value stored
    under a key that is set only on a condition. *)
Definition when (cond : Prop) `{!Decision cond} (v : string) : option string :=
  if decide cond then Some v else None.

(** ** More readings of a run *)

(** The requests that [m], run from [w], adds to those already sent. *)
Definition new_requests {C A} (m : M C A) (w : World C) : list BceRequest :=
  drop (length (sent (trace w))) (sent (trace (m w).2)).

(** The responses whose body [m], run from [w], parses. *)
Definition new_parsed {C A} (m : M C A) (w : World C) : list BceResponse :=
  drop (length (parsed (trace w))) (parsed (trace (m w).2)).

(** Run from [w], the operation [m] hands exactly one request to the
    transport; whenever the transport answers that request with an error of
    its own, [m] returns [nil_with] that error, whatever the response holder
    says, parses no body and keeps the client the transport left. *)
Definition propagates_transport_error {C A} `{!Client C} (m : M C A)
    (w : World C) (nil_with : error → A) : Prop :=
  ∃ req, new_requests m w = [req] ∧
    ∀ e resp cli',
      SendRequest (client w) req new_BceResponse = (Some e, resp, cli') →
      (m w).1 = Ret (nil_with e) ∧ new_parsed m w = [] ∧
      client (m w).2 = cli'.

(** What [ParseJsonBody] into a zero value, followed by the test of its
    error, makes of a body: the decoded result and a nil error, or a nil
    result and the error of the decoder. *)
Definition decoded {T} `{!JsonResult T} (body : string)
    : option T * option error :=
  match json_Decode body zero_value with
  | (result, None) => (Some result, None)
  | (_, Some e) => (None, Some e)
  end.

(** Run from [w], the operation [m] hands exactly one request to the
    transport; whenever the transport answers that request without an error
    and with a response that is not a failure, [m] parses the body of that
    response, once, and returns what decoding it gives. *)
Definition decodes_response {C T} `{!Client C} `{!JsonResult T}
    (m : M C (option T * option error)) (w : World C) : Prop :=
  ∃ req, new_requests m w = [req] ∧
    ∀ resp cli',
      SendRequest (client w) req new_BceResponse = (None, resp, cli') →
      IsFail resp = false →
      (m w).1 = Ret (decoded (resp_body resp)) ∧ new_parsed m w = [resp] ∧
      client (m w).2 = cli'.

(** Run from [w], the operation [m], which has no typed result, hands
    exactly one request to the transport and never parses a body; whenever
    the transport answers without an error and with a response that is not a
    failure, [m] returns nil. *)
Definition succeeds_plain {C} `{!Client C} (m : M C (option error))
    (w : World C) : Prop :=
  ∃ req, new_requests m w = [req] ∧ new_parsed m w = [] ∧
    ∀ resp cli',
      SendRequest (client w) req new_BceResponse = (None, resp, cli') →
      IsFail resp = false →
      (m w).1 = Ret None ∧ client (m w).2 = cli'.

(** Run from [w], the operation [m] only adds to the requests sent, and adds
    at most one. *)
Definition sends_at_most_one {C A} (m : M C A) (w : World C) : Prop :=
  sent (trace (m w).2) = (sent (trace w) ++ new_requests m w)%list ∧
  (length (new_requests m w) ≤ 1)%nat.



(** ** A JSON codec for the registration parameters

    The wire form of a [RegDocumentParam] is the JSON object with the two
    members title and format.  In a string, the quote and the backslash are
    escaped with a backslash. *)

Module json.

Definition quote : ascii := ascii_of_nat 34.
Definition backslash : ascii := ascii_of_nat 92.

Definition special (c : ascii) : bool :=
  (c =? quote)%char || (c =? backslash)%char.

Fixpoint escape (s : string) : string :=
  match s with
  | EmptyString => EmptyString
  | String c s' =>
    if special c then String backslash (String c (escape s'))
    else String c (escape s')
  end.


Fixpoint strip_prefix (pre s : string) : option string :=
  match pre, s with
  | EmptyString, _ => Some s
  | String a pre', String b s' =>
    if (a =? b)%char then strip_prefix pre' s' else None
  | String _ _, EmptyString => None
  end.

(** The text before the title, between the two members, and at the end. *)
Definition open_title : string :=
  "{" ++ String quote "title" ++ String quote ":" ++ String quote "".
Definition open_format : string :=
  "," ++ String quote "format" ++ String quote ":" ++ String quote "".
Definition close_object : string := "}".

Definition Marshal (p : RegDocumentParam) : string :=
  open_title ++ escape (Title p) ++ String quote
    (open_format ++ escape (Format p) ++ String quote close_object).


End json.

(** The document id that the path of an item request names. *)
Definition path_document_id (uri : string) : option string :=
  json.strip_prefix "/v2/document/" uri.

(** ** Test doubles for the collaborators *)

Module double.

(** A transport that answers every request with the same error and response
    and counts its invocations. *)
Record Double := {
  reply_err : option error;
  reply : BceResponse;
  invocations : nat;
}.

Definition Double_Client : Client Double := λ d req resp,
  (reply_err d, reply d,
   {| reply_err := reply_err d; reply := reply d;
      invocations := S (invocations d) |}).

Definition constants : BceConstants := "application/json;charset=utf-8".

Definition codec : ParamCodec := λ p, (json.Marshal p, None).

(** Modelled from the spec: the validity check of the list parameters is not
    in src/.  Here maxSize must lie in an allowed range, 0 to 200; a nil
    pointer panics when its field is read. *)
Definition range_Check : ParamCheck := λ listParam,
  match listParam with
  | None => Panic "invalid memory address or nil pointer dereference"
  | Some p =>
    if ((MaxSize p <? 0) || (200 <? MaxSize p))%Z then
      Ret (Some (errors_New "invalid maxSize"))
    else Ret None
  end.

(** Results kept as the raw body; an empty body does not decode. *)
Definition raw_result : JsonResult string := {|
  zero_value := "";
  json_Decode body result :=
    if decide (body = "") then
      (result, Some (collaborator_error "unexpected end of JSON input"))
    else (body, None);
|}.

Definition NotFound : BceServiceError :=
  {| Code := "NotFound"; Message := "no such document"; RequestId := "r-1" |}.

(** A transport whose every answer is the service error envelope NotFound. *)
Definition failing : World Double :=
  {| client := {| reply_err := None;
                  reply := {| resp_fail := true;
                              resp_serviceError := Some NotFound;
                              resp_body := "" |};
                  invocations := 0 |};
     trace := [] |}.

(** A transport whose every answer is a success with a JSON body. *)
Definition succeeding : World Double :=
  {| client := {| reply_err := None;
                  reply := {| resp_fail := false;
                              resp_serviceError := None;
                              resp_body := "{}" |};
                  invocations := 0 |};
     trace := [] |}.

(** A serializer that refuses every parameter object. *)
Definition refusing_codec : ParamCodec := λ p,
  ("", Some (collaborator_error "json: unsupported value")).

(** A transport that cannot reach the service; its response holder says
    failure all the same. *)
Definition unreachable : World Double :=
  {| client := {| reply_err := Some (collaborator_error "connection refused");
                  reply := {| resp_fail := true;
                              resp_serviceError := Some NotFound;
                              resp_body := "" |};
                  invocations := 0 |};
     trace := [] |}.

(** A transport whose every answer is a success with an empty body. *)
Definition silent : World Double :=
  {| client := {| reply_err := None;
                  reply := {| resp_fail := false;
                              resp_serviceError := None;
                              resp_body := "" |};
                  invocations := 0 |};
     trace := [] |}.

End double.
(** ** The operations of document.go *)

Section DocumentApi.

Context {C : Type} `{!Client C} `{!BceConstants} `{!ParamCodec} `{!ParamCheck}.
Context {RegDocumentResp QueryDocumentResp ReadDocumentResp : Type}.
Context {GetImagesResp ListDocumentsResp : Type}.
Context `{!JsonResult RegDocumentResp} `{!JsonResult QueryDocumentResp}.
Context `{!JsonResult ReadDocumentResp} `{!JsonResult GetImagesResp}.
Context `{!JsonResult ListDocumentsResp}.

(** The client [cli] of every operation is the client of the world. *)
Definition RegisterDocument (regParam : option RegDocumentParam)
    : M C (option RegDocumentResp * option error) :=
  match regParam with
  | None => mret (None, Some (errors_New "param cannot be nil"))
  | Some p =>
    let '(playload, err) := RegDocumentParam_String p in
    match err with
    | Some err => mret (None, Some err)
    | None =>
      let '(body, err) := NewBodyFromString playload in
      match err with
      | Some err => mret (None, Some err)
      | None =>
        let req := new_BceRequest in
        let req := SetUri "/v2/document" req in
        let req := SetParam "register" "" req in
        let req := SetMethod http.POST req in
        let req := SetHeader http.CONTENT_TYPE DEFAULT_CONTENT_TYPE req in
        let req := SetBody body req in
        let resp := new_BceResponse in
        '(err, resp) ← call_SendRequest req resp;
        match err with
        | Some err => mret (None, Some err)
        | None =>
          if IsFail resp then
            mret (None, Some (service_error (ServiceError resp)))
          else
            let result := zero_value in
            '(result, err) ← ParseJsonBody resp result;
            match err with
            | Some err => mret (None, Some err)
            | None => mret (Some result, None)
            end
        end
      end
    end
  end.

Definition PublishDocument (documentId : string) : M C (option error) :=
  let req := new_BceRequest in
  let urlPath := fmt.Sprintf_s "/v2/document/" documentId in
  let req := SetUri urlPath req in
  let req := SetParam "publish" "" req in
  let req := SetMethod http.PUT req in
  let req := SetHeader http.CONTENT_TYPE DEFAULT_CONTENT_TYPE req in
  let resp := new_BceResponse in
  '(err, resp) ← call_SendRequest req resp;
  match err with
  | Some err => mret (Some err)
  | None =>
    if IsFail resp then
      mret (Some (service_error (ServiceError resp)))
    else
      mret None
  end.

Definition QueryDocument (documentId : string)
    (queryParam : option QueryDocumentParam)
    : M C (option QueryDocumentResp * option error) :=
  let req := new_BceRequest in
  let urlPath := fmt.Sprintf_s "/v2/document/" documentId in
  let req := SetUri urlPath req in
  let req :=
    match queryParam with
    | Some q => SetParam "https" (strconv.FormatBool (Https q)) req
    | None => req
    end in
  let req := SetMethod http.GET req in
  let req := SetHeader http.CONTENT_TYPE DEFAULT_CONTENT_TYPE req in
  let resp := new_BceResponse in
  '(err, resp) ← call_SendRequest req resp;
  match err with
  | Some err => mret (None, Some err)
  | None =>
    if IsFail resp then
      mret (None, Some (service_error (ServiceError resp)))
    else
      let result := zero_value in
      '(result, err) ← ParseJsonBody resp result;
      match err with
      | Some err => mret (None, Some err)
      | None => mret (Some result, None)
      end
  end.

Definition ReadDocument (documentId : string)
    (readParam : option ReadDocumentParam)
    : M C (option ReadDocumentResp * option error) :=
  let req := new_BceRequest in
  let urlPath := fmt.Sprintf_s "/v2/document/" documentId in
  let req := SetUri urlPath req in
  let req := SetParam "read" "" req in
  let req :=
    match readParam with
    | Some r =>
      SetParam "expireInSeconds" (strconv.FormatInt (ExpireInSeconds r)) req
    | None => req
    end in
  let req := SetMethod http.GET req in
  let req := SetHeader http.CONTENT_TYPE DEFAULT_CONTENT_TYPE req in
  let resp := new_BceResponse in
  '(err, resp) ← call_SendRequest req resp;
  match err with
  | Some err => mret (None, Some err)
  | None =>
    if IsFail resp then
      mret (None, Some (service_error (ServiceError resp)))
    else
      let result := zero_value in
      '(result, err) ← ParseJsonBody resp result;
      match err with
      | Some err => mret (None, Some err)
      | None => mret (Some result, None)
      end
  end.

Definition GetImages (documentId : string)
    : M C (option GetImagesResp * option error) :=
  let req := new_BceRequest in
  let urlPath := fmt.Sprintf_s "/v2/document/" documentId in
  let req := SetUri urlPath req in
  let req := SetParam "getImages" "" req in
  let req := SetMethod http.GET req in
  let req := SetHeader http.CONTENT_TYPE DEFAULT_CONTENT_TYPE req in
  let resp := new_BceResponse in
  '(err, resp) ← call_SendRequest req resp;
  match err with
  | Some err => mret (None, Some err)
  | None =>
    if IsFail resp then
      mret (None, Some (service_error (ServiceError resp)))
    else
      let result := zero_value in
      '(result, err) ← ParseJsonBody resp result;
      match err with
      | Some err => mret (None, Some err)
      | None => mret (Some result, None)
      end
  end.

Definition DeleteDocument (documentId : string) : M C (option error) :=
  let req := new_BceRequest in
  let urlPath := fmt.Sprintf_s "/v2/document/" documentId in
  let req := SetUri urlPath req in
  let req := SetMethod http.DELETE req in
  let req := SetHeader http.CONTENT_TYPE DEFAULT_CONTENT_TYPE req in
  let resp := new_BceResponse in
  '(err, resp) ← call_SendRequest req resp;
  match err with
  | Some err => mret (Some err)
  | None =>
    if IsFail resp then
      mret (Some (service_error (ServiceError resp)))
    else
      mret None
  end.

(** [listParam.Check()] is called before anything else, also on a nil
    pointer; the fields are read through the pointer afterwards. *)
Definition ListDocuments (listParam : option ListDocumentsParam)
    : M C (option ListDocumentsResp * option error) :=
  err ← call_Check listParam;
  match err with
  | Some err => mret (None, Some err)
  | None =>
    let req := new_BceRequest in
    let req := SetUri "/v2/document/" req in
    let req := SetMethod http.GET req in
    p ← deref listParam;
    let req :=
      if decide (Status p ≠ "") then SetParam "status" (Status p) req
      else req in
    let req :=
      if decide (Marker p ≠ "") then SetParam "marker" (Marker p) req
      else req in
    let req :=
      if decide (MaxSize p ≠ 0) then
        SetParam "maxSize" (strconv.FormatInt (MaxSize p)) req
      else req in
    let resp := new_BceResponse in
    '(err, resp) ← call_SendRequest req resp;
    match err with
    | Some err => mret (None, Some err)
    | None =>
      if IsFail resp then
        mret (None, Some (service_error (ServiceError resp)))
      else
        let result := zero_value in
        '(result, err) ← ParseJsonBody resp result;
        match err with
        | Some err => mret (None, Some err)
        | None => mret (Some result, None)
        end
    end
  end.

(** *** The request of each operation and the shared dispatch

    Every operation ends in the same lines: send, test [IsFail], parse.
    They are written out in each operation above, as in the source; here they
    are stated once, with the request each operation builds, to be proved
    equal to the operations below. *)

Definition dispatch {T} `{!JsonResult T} (req : BceRequest)
    : M C (option T * option error) :=
  '(err, resp) ← call_SendRequest req new_BceResponse;
  match err with
  | Some err => mret (None, Some err)
  | None =>
    if IsFail resp then
      mret (None, Some (service_error (ServiceError resp)))
    else
      '(result, err) ← ParseJsonBody resp zero_value;
      match err with
      | Some err => mret (None, Some err)
      | None => mret (Some result, None)
      end
  end.

Definition dispatch_plain (req : BceRequest) : M C (option error) :=
  '(err, resp) ← call_SendRequest req new_BceResponse;
  match err with
  | Some err => mret (Some err)
  | None =>
    if IsFail resp then mret (Some (service_error (ServiceError resp)))
    else mret None
  end.

Definition register_request (body : option Body) : BceRequest :=
  {| req_uri := "/v2/document"; req_params := {["register" := ""]};
     req_method := http.POST;
     req_headers := {[http.CONTENT_TYPE := DEFAULT_CONTENT_TYPE]};
     req_body := body |}.

Definition publish_request (documentId : string) : BceRequest :=
  {| req_uri := "/v2/document/" ++ documentId;
     req_params := {["publish" := ""]};
     req_method := http.PUT;
     req_headers := {[http.CONTENT_TYPE := DEFAULT_CONTENT_TYPE]};
     req_body := None |}.

Definition query_request (documentId : string)
    (queryParam : option QueryDocumentParam) : BceRequest :=
  {| req_uri := "/v2/document/" ++ documentId;
     req_params :=
       match queryParam with
       | Some q => {["https" := strconv.FormatBool (Https q)]}
       | None => ∅
       end;
     req_method := http.GET;
     req_headers := {[http.CONTENT_TYPE := DEFAULT_CONTENT_TYPE]};
     req_body := None |}.

Definition read_request (documentId : string)
    (readParam : option ReadDocumentParam) : BceRequest :=
  {| req_uri := "/v2/document/" ++ documentId;
     req_params :=
       match readParam with
       | Some r =>
         <["expireInSeconds" := strconv.FormatInt (ExpireInSeconds r)]>
           {["read" := ""]}
       | None => {["read" := ""]}
       end;
     req_method := http.GET;
     req_headers := {[http.CONTENT_TYPE := DEFAULT_CONTENT_TYPE]};
     req_body := None |}.

Definition images_request (documentId : string) : BceRequest :=
  {| req_uri := "/v2/document/" ++ documentId;
     req_params := {["getImages" := ""]};
     req_method := http.GET;
     req_headers := {[http.CONTENT_TYPE := DEFAULT_CONTENT_TYPE]};
     req_body := None |}.

Definition delete_request (documentId : string) : BceRequest :=
  {| req_uri := "/v2/document/" ++ documentId; req_params := ∅;
     req_method := http.DELETE;
     req_headers := {[http.CONTENT_TYPE := DEFAULT_CONTENT_TYPE]};
     req_body := None |}.

Definition list_filter (key value : string) (present : bool)
    (params : gmap string string) : gmap string string :=
  if present then <[key := value]> params else params.

Definition list_request (p : ListDocumentsParam) : BceRequest :=
  {| req_uri := "/v2/document/";
     req_params :=
       list_filter "maxSize" (strconv.FormatInt (MaxSize p))
         (bool_decide (MaxSize p ≠ 0))
         (list_filter "marker" (Marker p) (bool_decide (Marker p ≠ ""))
            (list_filter "status" (Status p) (bool_decide (Status p ≠ ""))
               ∅));
     req_method := http.GET; req_headers := ∅; req_body := None |}.

(** Unfolds the dispatch; [run_dispatch] also splits on the answer of the
    transport. *)
Ltac unfold_dispatch :=
  unfold dispatch, dispatch_plain, call_SendRequest, ParseJsonBody,
    mbind, M_bind, mret, M_ret; cbn.

Ltac run_dispatch Hsend :=
  unfold_dispatch;
  match goal with
  | |- context [SendRequest ?c ?r ?h] =>
    destruct (SendRequest c r h) as [[[err|] resp] cli'] eqn:Hsend; cbn
  end.

(** ** The operations, unfolded *)

Example FormatInt_20 : strconv.FormatInt 20 = "20".
Proof. reflexivity. Qed.

Example FormatInt_negative : strconv.FormatInt (-7) = "-7".
Proof. reflexivity. Qed.

Example FormatInt_zero : strconv.FormatInt 0 = "0".
Proof. reflexivity. Qed.

Lemma RegisterDocument_eq (p : RegDocumentParam) (payload : string) :
  RegDocumentParam_String p = (payload, None) →
  RegisterDocument (Some p)
  = dispatch (register_request (NewBodyFromString payload).1).
Proof. intros Hs. unfold RegisterDocument. rewrite Hs. reflexivity. Qed.

Lemma PublishDocument_eq (documentId : string) :
  PublishDocument documentId = dispatch_plain (publish_request documentId).
Proof. reflexivity. Qed.

Lemma QueryDocument_eq (documentId : string) queryParam :
  QueryDocument documentId queryParam
  = dispatch (query_request documentId queryParam).
Proof. destruct queryParam; reflexivity. Qed.

Lemma ReadDocument_eq (documentId : string) readParam :
  ReadDocument documentId readParam
  = dispatch (read_request documentId readParam).
Proof. destruct readParam; reflexivity. Qed.

Lemma GetImages_eq (documentId : string) :
  GetImages documentId = dispatch (images_request documentId).
Proof. reflexivity. Qed.

Lemma DeleteDocument_eq (documentId : string) :
  DeleteDocument documentId = dispatch_plain (delete_request documentId).
Proof. reflexivity. Qed.

Lemma ListDocuments_eq (p : ListDocumentsParam) (w : World C) :
  Check (Some p) = Ret None →
  ListDocuments (Some p) w
  = dispatch (list_request p) (log (EvCheck (Some p)) (client w) w).
Proof.
  intros Hc. unfold ListDocuments, call_Check, mbind, M_bind at 1.
  rewrite Hc. cbn.
  unfold list_request, list_filter.
  repeat case_decide; repeat case_bool_decide; try contradiction; reflexivity.
Qed.

(** ** What the shared dispatch does *)

Lemma sent_app (t t' : list event) : sent (t ++ t') = (sent t ++ sent t')%list.
Proof.
  induction t as [|e t IH]; [reflexivity|].
  destruct e; cbn; rewrite IH; reflexivity.
Qed.

Lemma parsed_app (t t' : list event) :
  parsed (t ++ t') = (parsed t ++ parsed t')%list.
Proof.
  induction t as [|e t IH]; [reflexivity|].
  destruct e; cbn; rewrite IH; reflexivity.
Qed.

Lemma dispatch_sent {T} `{!JsonResult T} (req : BceRequest) (w : World C) :
  sent (trace (dispatch (T:=T) req w).2) = (sent (trace w) ++ [req])%list.
Proof.
  run_dispatch Hsend; [rewrite sent_app; reflexivity|].
  destruct (IsFail resp); cbn; [rewrite sent_app; reflexivity|].
  destruct (json_Decode (resp_body resp) zero_value) as [result [err|]]; cbn;
    rewrite !sent_app, <- app_assoc; reflexivity.
Qed.

Lemma dispatch_plain_sent (req : BceRequest) (w : World C) :
  sent (trace (dispatch_plain req w).2) = (sent (trace w) ++ [req])%list.
Proof.
  run_dispatch Hsend; [rewrite sent_app; reflexivity|].
  destruct (IsFail resp); cbn; rewrite sent_app; reflexivity.
Qed.

Lemma dispatch_fail {T} `{!JsonResult T} (req : BceRequest) (w : World C)
    (resp : BceResponse) (cli' : C) :
  SendRequest (client w) req new_BceResponse = (None, resp, cli') →
  IsFail resp = true →
  dispatch (T:=T) req w
  = (Ret (None, Some (service_error (ServiceError resp))),
     log (EvSendRequest req) cli' w).
Proof.
  intros Hs Hf. unfold_dispatch. rewrite Hs. cbn. rewrite Hf. reflexivity.
Qed.

Lemma dispatch_plain_fail (req : BceRequest) (w : World C)
    (resp : BceResponse) (cli' : C) :
  SendRequest (client w) req new_BceResponse = (None, resp, cli') →
  IsFail resp = true →
  dispatch_plain req w
  = (Ret (Some (service_error (ServiceError resp))),
     log (EvSendRequest req) cli' w).
Proof.
  intros Hs Hf. unfold_dispatch. rewrite Hs. cbn. rewrite Hf. reflexivity.
Qed.

Lemma parsed_log_send (req : BceRequest) (cli : C) (w : World C) :
  parsed (trace (log (EvSendRequest req) cli w)) = parsed (trace w).
Proof. cbn. rewrite parsed_app. cbn. apply app_nil_r. Qed.

Lemma sent_log_check listParam (cli : C) (w : World C) :
  sent (trace (log (EvCheck listParam) cli w)) = sent (trace w).
Proof. cbn. rewrite sent_app. cbn. apply app_nil_r. Qed.

Lemma parsed_log_check listParam (cli : C) (w : World C) :
  parsed (trace (log (EvCheck listParam) cli w)) = parsed (trace w).
Proof. cbn. rewrite parsed_app. cbn. apply app_nil_r. Qed.

Lemma dispatch_builds {T} `{!JsonResult T} (req : BceRequest) (w : World C)
    (P : BceRequest → Prop) :
  P req → builds (dispatch (T:=T) req) w P.
Proof. intros HP. exists req. split; [apply dispatch_sent | exact HP]. Qed.

Lemma dispatch_plain_builds (req : BceRequest) (w : World C)
    (P : BceRequest → Prop) :
  P req → builds (dispatch_plain req) w P.
Proof.
  intros HP. exists req. split; [apply dispatch_plain_sent | exact HP].
Qed.

Lemma dispatch_surfaces {T} `{!JsonResult T} (req : BceRequest)
    (w : World C) :
  surfaces_service_error (dispatch (T:=T) req) w (λ e, (None, Some e)).
Proof.
  exists req. split; [apply dispatch_sent|].
  intros resp cli' Hs Hf. rewrite (dispatch_fail _ _ _ _ Hs Hf).
  split; [reflexivity | apply parsed_log_send].
Qed.

Lemma dispatch_plain_surfaces (req : BceRequest) (w : World C) :
  surfaces_service_error (dispatch_plain req) w Some.
Proof.
  exists req. split; [apply dispatch_plain_sent|].
  intros resp cli' Hs Hf. rewrite (dispatch_plain_fail _ _ _ _ Hs Hf).
  split; [reflexivity | apply parsed_log_send].
Qed.

(** After a check that passes, [ListDocuments] is the dispatch of its
    request in the world where the check is logged. *)
Lemma ListDocuments_builds (p : ListDocumentsParam) (w : World C)
    (P : BceRequest → Prop) :
  Check (Some p) = Ret None → P (list_request p) →
  builds (ListDocuments (Some p)) w P.
Proof.
  intros Hc HP. unfold builds. rewrite (ListDocuments_eq _ _ Hc).
  exists (list_request p). split; [|exact HP].
  rewrite dispatch_sent, sent_log_check. reflexivity.
Qed.

Lemma ListDocuments_surfaces (p : ListDocumentsParam) (w : World C) :
  Check (Some p) = Ret None →
  surfaces_service_error (ListDocuments (Some p)) w (λ e, (None, Some e)).
Proof.
  intros Hc. unfold surfaces_service_error. rewrite (ListDocuments_eq _ _ Hc).
  exists (list_request p). split.
  - rewrite dispatch_sent, sent_log_check. reflexivity.
  - intros resp cli' Hs Hf.
    rewrite (dispatch_fail (list_request p) (log _ (client w) w) resp cli' Hs Hf).
    split; [reflexivity|].
    etrans; [apply parsed_log_send | apply parsed_log_check].
Qed.

(** ** The claims *)

(** C1: for every operation, when the transport call succeeds and the
    response is a failure, the operation returns the decoded service error
    with a nil typed result, and the body of the response is not parsed. *)
Theorem service_failure_returns_service_error
    (w : World C) (p : RegDocumentParam) (payload documentId : string)
    (queryParam : option QueryDocumentParam)
    (readParam : option ReadDocumentParam) (lp : ListDocumentsParam) :
  RegDocumentParam_String p = (payload, None) →
  Check (Some lp) = Ret None →
  surfaces_service_error (RegisterDocument (Some p)) w (λ e, (None, Some e)) ∧
  surfaces_service_error (PublishDocument documentId) w Some ∧
  surfaces_service_error (QueryDocument documentId queryParam) w
    (λ e, (None, Some e)) ∧
  surfaces_service_error (ReadDocument documentId readParam) w
    (λ e, (None, Some e)) ∧
  surfaces_service_error (GetImages documentId) w (λ e, (None, Some e)) ∧
  surfaces_service_error (DeleteDocument documentId) w Some ∧
  surfaces_service_error (ListDocuments (Some lp)) w (λ e, (None, Some e)).
Proof.
  intros Hs Hc.
  rewrite (RegisterDocument_eq _ _ Hs), PublishDocument_eq, QueryDocument_eq,
    ReadDocument_eq, GetImages_eq, DeleteDocument_eq.
  repeat split;
    first [ apply dispatch_surfaces | apply dispatch_plain_surfaces
          | apply ListDocuments_surfaces; exact Hc ].
Qed.

(** C2: with a nil [regParam], [RegisterDocument] returns a nil result and
    the error "param cannot be nil"; the world is unchanged, so [SendRequest]
    is not invoked. *)
Theorem RegisterDocument_nil_param (w : World C) :
  RegisterDocument None w
  = (Ret (None, Some (errors_New "param cannot be nil")), w) ∧
  sent (trace (RegisterDocument None w).2) = sent (trace w).
Proof. split; reflexivity. Qed.

(** C3: with a nil [queryParam], the request of [QueryDocument] has no
    "https" key among its query parameters, and with a nil [readParam] the
    request of [ReadDocument] has no "expireInSeconds" key. *)
Theorem nil_optional_param_omits_key (documentId : string) (w : World C) :
  builds (QueryDocument documentId None) w
    (λ req, req_params req !! "https" = None ∧ req_params req = ∅) ∧
  builds (ReadDocument documentId None) w
    (λ req, req_params req !! "expireInSeconds" = None ∧
            req_params req = {["read" := ""]}).
Proof.
  rewrite QueryDocument_eq, ReadDocument_eq.
  split; apply dispatch_builds; split; reflexivity.
Qed.

(** C4: when the check of the list parameters returns an error,
    [ListDocuments] returns that error with a nil result; the client is
    untouched and [SendRequest] is not invoked. *)
Theorem ListDocuments_invalid_param
    (listParam : option ListDocumentsParam) (e : error) (w : World C) :
  Check listParam = Ret (Some e) →
  (ListDocuments listParam w).1 = Ret (None, Some e) ∧
  sent (trace (ListDocuments listParam w).2) = sent (trace w) ∧
  client (ListDocuments listParam w).2 = client w.
Proof.
  intros Hc. unfold ListDocuments, call_Check, mbind, M_bind.
  rewrite Hc. cbn. rewrite sent_app. cbn. rewrite app_nil_r. auto.
Qed.

(** C5: after a check that passes, the request of [ListDocuments] is a GET
    of /v2/document/ whose query has "status", "marker" and "maxSize" exactly
    when the field is not the empty string, resp. not zero, with the field's
    value, maxSize in decimal; it has no other key.  With marker m1 and
    maxSize 20 the query holds marker=m1 and maxSize=20. *)
Theorem ListDocuments_request (p : ListDocumentsParam) (w : World C) :
  Check (Some p) = Ret None →
  builds (ListDocuments (Some p)) w (λ req,
    req_method req = http.GET ∧ req_uri req = "/v2/document/" ∧
    req_params req !! "status" = when (Status p ≠ "") (Status p) ∧
    req_params req !! "marker" = when (Marker p ≠ "") (Marker p) ∧
    req_params req !! "maxSize"
      = when (MaxSize p ≠ 0) (strconv.FormatInt (MaxSize p)) ∧
    (∀ key, key ∉ ["status"; "marker"; "maxSize"] →
            req_params req !! key = None) ∧
    (Marker p = "m1" → MaxSize p = 20 →
     req_params req !! "marker" = Some "m1" ∧
     req_params req !! "maxSize" = Some "20")).
Proof.
  intros Hc. apply ListDocuments_builds; [exact Hc|].
  assert (Hst : req_params (list_request p) !! "status"
                = when (Status p ≠ "") (Status p)).
  { unfold list_request, list_filter, when; cbn.
    repeat case_bool_decide; repeat case_decide; try contradiction;
      simplify_map_eq; reflexivity. }
  assert (Hmk : req_params (list_request p) !! "marker"
                = when (Marker p ≠ "") (Marker p)).
  { unfold list_request, list_filter, when; cbn.
    repeat case_bool_decide; repeat case_decide; try contradiction;
      simplify_map_eq; reflexivity. }
  assert (Hms : req_params (list_request p) !! "maxSize"
                = when (MaxSize p ≠ 0) (strconv.FormatInt (MaxSize p))).
  { unfold list_request, list_filter, when; cbn.
    repeat case_bool_decide; repeat case_decide; try contradiction;
      simplify_map_eq; reflexivity. }
  split_and!; try assumption; try reflexivity.
  - intros key Hkey. unfold list_request, list_filter; cbn.
    assert (key ≠ "status" ∧ key ≠ "marker" ∧ key ≠ "maxSize")
      as (Kst & Kmk & Kms).
    { split_and!; intros ->; apply Hkey; set_solver. }
    repeat case_bool_decide; simplify_map_eq; reflexivity.
  - intros Em Es. rewrite Hmk, Hms, Em, Es. split; reflexivity.
Qed.


(** C7: with a non-nil [queryParam], the request of [QueryDocument] is a GET
    of /v2/document/ followed by the document id, and its query has the key
    "https" with the formatted boolean; for the id abc123 and Https true the
    path is /v2/document/abc123 and the query holds https=true. *)
Theorem QueryDocument_request (documentId : string) (q : QueryDocumentParam)
    (w : World C) :
  builds (QueryDocument documentId (Some q)) w (λ req,
    req_method req = http.GET ∧
    req_uri req = "/v2/document/" ++ documentId ∧
    req_params req !! "https" = Some (strconv.FormatBool (Https q))) ∧
  builds (QueryDocument "abc123" (Some {| Https := true |})) w (λ req,
    req_uri req = "/v2/document/abc123" ∧
    req_params req !! "https" = Some "true").
Proof.
  rewrite !QueryDocument_eq.
  split; apply dispatch_builds; repeat split.
Qed.

(** C8: the request of every operation but [ListDocuments] carries the
    header Content-Type with the default value; the request of
    [ListDocuments] carries no Content-Type header. *)
Theorem content_type_header
    (w : World C) (p : RegDocumentParam) (payload documentId : string)
    (queryParam : option QueryDocumentParam)
    (readParam : option ReadDocumentParam) (lp : ListDocumentsParam) :
  RegDocumentParam_String p = (payload, None) →
  Check (Some lp) = Ret None →
  let has_default req :=
    req_headers req !! http.CONTENT_TYPE = Some DEFAULT_CONTENT_TYPE in
  builds (RegisterDocument (Some p)) w has_default ∧
  builds (PublishDocument documentId) w has_default ∧
  builds (QueryDocument documentId queryParam) w has_default ∧
  builds (ReadDocument documentId readParam) w has_default ∧
  builds (GetImages documentId) w has_default ∧
  builds (DeleteDocument documentId) w has_default ∧
  builds (ListDocuments (Some lp)) w
    (λ req, req_headers req !! http.CONTENT_TYPE = None).
Proof.
  intros Hs Hc has_default.
  rewrite (RegisterDocument_eq _ _ Hs), PublishDocument_eq, QueryDocument_eq,
    ReadDocument_eq, GetImages_eq, DeleteDocument_eq.
  repeat split;
    first [ apply dispatch_builds; apply lookup_singleton_eq
          | apply dispatch_plain_builds; apply lookup_singleton_eq
          | apply ListDocuments_builds; [exact Hc | reflexivity] ].
Qed.

(** C9, as the code has it: [PublishDocument] validates nothing.  For every
    [documentId], the empty one too, it hands to the transport the request
    PUT /v2/document/ followed by the id, with the query key "publish". *)
Theorem PublishDocument_request (documentId : string) (w : World C) :
  builds (PublishDocument documentId) w (λ req,
    req_method req = http.PUT ∧
    req_uri req = "/v2/document/" ++ documentId ∧
    req_params req !! "publish" = Some "").
Proof.
  rewrite PublishDocument_eq. apply dispatch_plain_builds. repeat split.
Qed.

(** C10: [ListDocuments] has no nil guard.  With a nil [listParam] it calls
    [Check] on the nil pointer, and nothing else; it returns the error of
    [Check] if there is one, and panics on the nil pointer otherwise.
    [RegisterDocument] rejects its nil parameter without calling anything. *)
Theorem ListDocuments_nil_param (w : World C) :
  trace (ListDocuments None w).2 = (trace w ++ [EvCheck None])%list ∧
  (ListDocuments None w).1
  = match Check None with
    | Ret (Some e) => Ret (None, Some e)
    | Ret None => Panic "invalid memory address or nil pointer dereference"
    | Panic msg => Panic msg
    end ∧
  sent (trace (ListDocuments None w).2) = sent (trace w) ∧
  RegisterDocument None w
  = (Ret (None, Some (errors_New "param cannot be nil")), w).
Proof.
  unfold ListDocuments, call_Check, mbind, M_bind.
  destruct (Check None) as [[e|]|msg]; cbn;
    rewrite sent_app; cbn; rewrite app_nil_r; auto.
Qed.

(** ** Beyond the claims: every path through the operations *)

Lemma new_requests_intro {A} (m : M C A) (w : World C) (l : list BceRequest) :
  sent (trace (m w).2) = (sent (trace w) ++ l)%list → new_requests m w = l.
Proof. intros E. unfold new_requests. rewrite E. apply drop_app_length. Qed.

Lemma new_parsed_intro {A} (m : M C A) (w : World C) (l : list BceResponse) :
  parsed (trace (m w).2) = (parsed (trace w) ++ l)%list → new_parsed m w = l.
Proof. intros E. unfold new_parsed. rewrite E. apply drop_app_length. Qed.

Lemma dispatch_error {T} `{!JsonResult T} (req : BceRequest) (w : World C)
    (e : error) (resp : BceResponse) (cli' : C) :
  SendRequest (client w) req new_BceResponse = (Some e, resp, cli') →
  dispatch (T:=T) req w = (Ret (None, Some e), log (EvSendRequest req) cli' w).
Proof. intros Hs. unfold_dispatch. rewrite Hs. reflexivity. Qed.

Lemma dispatch_plain_error (req : BceRequest) (w : World C)
    (e : error) (resp : BceResponse) (cli' : C) :
  SendRequest (client w) req new_BceResponse = (Some e, resp, cli') →
  dispatch_plain req w = (Ret (Some e), log (EvSendRequest req) cli' w).
Proof. intros Hs. unfold_dispatch. rewrite Hs. reflexivity. Qed.

Lemma dispatch_ok {T} `{!JsonResult T} (req : BceRequest) (w : World C)
    (resp : BceResponse) (cli' : C) :
  SendRequest (client w) req new_BceResponse = (None, resp, cli') →
  IsFail resp = false →
  dispatch (T:=T) req w
  = (Ret (decoded (resp_body resp)),
     log (EvParseJsonBody resp) cli' (log (EvSendRequest req) cli' w)).
Proof.
  intros Hs Hf. unfold_dispatch. rewrite Hs. cbn. rewrite Hf. unfold decoded.
  destruct (json_Decode (resp_body resp) zero_value) as [result [e|]];
    reflexivity.
Qed.

Lemma dispatch_plain_ok (req : BceRequest) (w : World C)
    (resp : BceResponse) (cli' : C) :
  SendRequest (client w) req new_BceResponse = (None, resp, cli') →
  IsFail resp = false →
  dispatch_plain req w = (Ret None, log (EvSendRequest req) cli' w).
Proof. intros Hs Hf. unfold_dispatch. rewrite Hs. cbn. rewrite Hf. reflexivity. Qed.

Lemma dispatch_new_requests {T} `{!JsonResult T} (req : BceRequest)
    (w : World C) :
  new_requests (dispatch (T:=T) req) w = [req].
Proof. apply new_requests_intro, dispatch_sent. Qed.

Lemma dispatch_plain_new_requests (req : BceRequest) (w : World C) :
  new_requests (dispatch_plain req) w = [req].
Proof. apply new_requests_intro, dispatch_plain_sent. Qed.

Lemma dispatch_plain_new_parsed (req : BceRequest) (w : World C) :
  new_parsed (dispatch_plain req) w = [].
Proof.
  apply new_parsed_intro. rewrite app_nil_r.
  run_dispatch Hsend; [|destruct (IsFail resp); cbn];
    rewrite parsed_app; apply app_nil_r.
Qed.

Lemma ListDocuments_new_requests (p : ListDocumentsParam) (w : World C) :
  Check (Some p) = Ret None →
  new_requests (ListDocuments (Some p)) w = [list_request p].
Proof.
  intros Hc. apply new_requests_intro. rewrite (ListDocuments_eq _ _ Hc).
  rewrite dispatch_sent, sent_log_check. reflexivity.
Qed.

Lemma dispatch_propagates {T} `{!JsonResult T} (req : BceRequest)
    (w : World C) :
  propagates_transport_error (dispatch (T:=T) req) w (λ e, (None, Some e)).
Proof.
  exists req. split; [apply dispatch_new_requests|].
  intros e resp cli' Hs. unfold new_parsed.
  rewrite (dispatch_error _ _ _ _ _ Hs). cbn.
  rewrite parsed_app, app_nil_r, drop_all. auto.
Qed.

Lemma dispatch_plain_propagates (req : BceRequest) (w : World C) :
  propagates_transport_error (dispatch_plain req) w Some.
Proof.
  exists req. split; [apply dispatch_plain_new_requests|].
  intros e resp cli' Hs. split_and!.
  - rewrite (dispatch_plain_error _ _ _ _ _ Hs). reflexivity.
  - apply dispatch_plain_new_parsed.
  - rewrite (dispatch_plain_error _ _ _ _ _ Hs). reflexivity.
Qed.

Lemma dispatch_decodes {T} `{!JsonResult T} (req : BceRequest) (w : World C) :
  decodes_response (dispatch (T:=T) req) w.
Proof.
  exists req. split; [apply dispatch_new_requests|].
  intros resp cli' Hs Hf. unfold new_parsed.
  rewrite (dispatch_ok _ _ _ _ Hs Hf). cbn.
  rewrite !parsed_app, app_nil_r, drop_app_length. auto.
Qed.

Lemma dispatch_plain_succeeds (req : BceRequest) (w : World C) :
  succeeds_plain (dispatch_plain req) w.
Proof.
  exists req. split; [apply dispatch_plain_new_requests|].
  split; [apply dispatch_plain_new_parsed|].
  intros resp cli' Hs Hf. rewrite (dispatch_plain_ok _ _ _ _ Hs Hf). auto.
Qed.

Lemma ListDocuments_propagates (p : ListDocumentsParam) (w : World C) :
  Check (Some p) = Ret None →
  propagates_transport_error (ListDocuments (Some p)) w (λ e, (None, Some e)).
Proof.
  intros Hc. exists (list_request p).
  split; [apply ListDocuments_new_requests, Hc|].
  intros e resp cli' Hs. unfold new_parsed. rewrite (ListDocuments_eq _ _ Hc).
  rewrite (dispatch_error (list_request p) (log _ (client w) w) e resp cli' Hs).
  cbn. rewrite !parsed_app, !app_nil_r, drop_all. auto.
Qed.

Lemma ListDocuments_decodes (p : ListDocumentsParam) (w : World C) :
  Check (Some p) = Ret None →
  decodes_response (ListDocuments (Some p)) w.
Proof.
  intros Hc. exists (list_request p).
  split; [apply ListDocuments_new_requests, Hc|].
  intros resp cli' Hs Hf. unfold new_parsed. rewrite (ListDocuments_eq _ _ Hc).
  rewrite (dispatch_ok (list_request p) (log _ (client w) w) resp cli' Hs Hf).
  cbn. rewrite !parsed_app, !app_nil_r. cbn. rewrite drop_app_length. auto.
Qed.

(** X1: when the transport itself reports an error, every operation returns
    that error unchanged, with a nil typed result; the response holder is not
    looked at, no body is parsed, and the request was sent once. *)
Theorem transport_error_is_propagated
    (w : World C) (p : RegDocumentParam) (payload documentId : string)
    (queryParam : option QueryDocumentParam)
    (readParam : option ReadDocumentParam) (lp : ListDocumentsParam) :
  RegDocumentParam_String p = (payload, None) →
  Check (Some lp) = Ret None →
  propagates_transport_error (RegisterDocument (Some p)) w
    (λ e, (None, Some e)) ∧
  propagates_transport_error (PublishDocument documentId) w Some ∧
  propagates_transport_error (QueryDocument documentId queryParam) w
    (λ e, (None, Some e)) ∧
  propagates_transport_error (ReadDocument documentId readParam) w
    (λ e, (None, Some e)) ∧
  propagates_transport_error (GetImages documentId) w
    (λ e, (None, Some e)) ∧
  propagates_transport_error (DeleteDocument documentId) w Some ∧
  propagates_transport_error (ListDocuments (Some lp)) w
    (λ e, (None, Some e)).
Proof.
  intros Hs Hc.
  rewrite (RegisterDocument_eq _ _ Hs), PublishDocument_eq, QueryDocument_eq,
    ReadDocument_eq, GetImages_eq, DeleteDocument_eq.
  split_and!;
    first [ apply dispatch_propagates | apply dispatch_plain_propagates
          | apply ListDocuments_propagates; exact Hc ].
Qed.

(** X2: when the transport reports no error and the response is not a
    failure, each of the five operations with a typed result parses the body
    of that response, once, into a zero value and returns the decoded result
    with a nil error, or a nil result with the error of the decoder. *)
Theorem success_response_is_decoded
    (w : World C) (p : RegDocumentParam) (payload documentId : string)
    (queryParam : option QueryDocumentParam)
    (readParam : option ReadDocumentParam) (lp : ListDocumentsParam) :
  RegDocumentParam_String p = (payload, None) →
  Check (Some lp) = Ret None →
  decodes_response (RegisterDocument (Some p)) w ∧
  decodes_response (QueryDocument documentId queryParam) w ∧
  decodes_response (ReadDocument documentId readParam) w ∧
  decodes_response (GetImages documentId) w ∧
  decodes_response (ListDocuments (Some lp)) w.
Proof.
  intros Hs Hc.
  rewrite (RegisterDocument_eq _ _ Hs), QueryDocument_eq, ReadDocument_eq,
    GetImages_eq.
  split_and!;
    first [ apply dispatch_decodes | apply ListDocuments_decodes; exact Hc ].
Qed.

(** X3: [PublishDocument] and [DeleteDocument] send one request and never
    parse a body, whatever the transport answers; when the transport reports
    no error and the response is not a failure, they return nil. *)
Theorem publish_and_delete_succeed (documentId : string) (w : World C) :
  succeeds_plain (PublishDocument documentId) w ∧
  succeeds_plain (DeleteDocument documentId) w.
Proof.
  rewrite PublishDocument_eq, DeleteDocument_eq.
  split; apply dispatch_plain_succeeds.
Qed.

(** X4: when [regParam.String()] returns an error, [RegisterDocument]
    returns that error with a nil result and leaves the world as it was: no
    request is built or sent. *)
Theorem RegisterDocument_serialization_error
    (p : RegDocumentParam) (payload : string) (e : error) (w : World C) :
  RegDocumentParam_String p = (payload, Some e) →
  RegisterDocument (Some p) w = (Ret (None, Some e), w) ∧
  new_requests (RegisterDocument (Some p)) w = [].
Proof.
  intros Hs. unfold new_requests, RegisterDocument. rewrite Hs. cbn.
  split; [reflexivity | apply drop_all].
Qed.

(** X5: with a non-nil [readParam], the request of [ReadDocument] is a GET
    of /v2/document/ followed by the id, without a body, whose query has
    exactly the keys "read", with an empty value, and "expireInSeconds", with
    the decimal form of the field, whatever its value: zero and negative
    values are sent as they are. *)
Theorem ReadDocument_request (documentId : string) (r : ReadDocumentParam)
    (w : World C) :
  builds (ReadDocument documentId (Some r)) w (λ req,
    req_method req = http.GET ∧
    req_uri req = "/v2/document/" ++ documentId ∧
    req_params req !! "read" = Some "" ∧
    req_params req !! "expireInSeconds"
      = Some (strconv.FormatInt (ExpireInSeconds r)) ∧
    (∀ key, key ∉ ["read"; "expireInSeconds"] →
            req_params req !! key = None) ∧
    req_body req = None).
Proof.
  rewrite ReadDocument_eq. apply dispatch_builds.
  split_and!; try reflexivity.
  intros key Hkey. cbn.
  assert (key ≠ "read" ∧ key ≠ "expireInSeconds") as [Kr Ke].
  { split; intros ->; apply Hkey; set_solver. }
  simplify_map_eq. reflexivity.
Qed.

(** X6: the request of [GetImages] is a GET of /v2/document/ followed by the
    id whose query is exactly the key "getImages"; the request of
    [DeleteDocument] is a DELETE of the same path with an empty query.
    Neither has a body, and no id is refused. *)
Theorem GetImages_and_DeleteDocument_requests (documentId : string)
    (w : World C) :
  builds (GetImages documentId) w (λ req,
    req_method req = http.GET ∧
    req_uri req = "/v2/document/" ++ documentId ∧
    req_params req = {["getImages" := ""]} ∧ req_body req = None) ∧
  builds (DeleteDocument documentId) w (λ req,
    req_method req = http.DELETE ∧
    req_uri req = "/v2/document/" ++ documentId ∧
    req_params req = ∅ ∧ req_body req = None).
Proof.
  rewrite GetImages_eq, DeleteDocument_eq. split.
  - apply dispatch_builds. split_and!; reflexivity.
  - apply dispatch_plain_builds. split_and!; reflexivity.
Qed.

Lemma sends_at_most_one_intro {A} (m : M C A) (w : World C)
    (l : list BceRequest) :
  sent (trace (m w).2) = (sent (trace w) ++ l)%list → (length l ≤ 1)%nat →
  sends_at_most_one m w.
Proof.
  intros E Hl. unfold sends_at_most_one.
  rewrite (new_requests_intro _ _ _ E). auto.
Qed.

Lemma dispatch_at_most_one {T} `{!JsonResult T} (req : BceRequest)
    (w : World C) :
  sends_at_most_one (dispatch (T:=T) req) w.
Proof. apply (sends_at_most_one_intro _ _ [req]); [apply dispatch_sent | auto]. Qed.

Lemma dispatch_plain_at_most_one (req : BceRequest) (w : World C) :
  sends_at_most_one (dispatch_plain req) w.
Proof.
  apply (sends_at_most_one_intro _ _ [req]); [apply dispatch_plain_sent | auto].
Qed.

(** What [ListDocuments] does when its request is not reached: the check
    returns an error or panics, or the pointer is nil. *)
Lemma ListDocuments_stopped (listParam : option ListDocumentsParam)
    (w : World C) :
  (∀ p, listParam = Some p → Check listParam ≠ Ret None) →
  ListDocuments listParam w
  = (match Check listParam with
     | Ret (Some e) => Ret (None, Some e)
     | Ret None => Panic "invalid memory address or nil pointer dereference"
     | Panic msg => Panic msg
     end,
     log (EvCheck listParam) (client w) w).
Proof.
  intros Hstop. unfold ListDocuments, call_Check, mbind, M_bind.
  destruct (Check listParam) as [[e|]|msg] eqn:Hc; try reflexivity.
  destruct listParam as [p|]; [|reflexivity].
  destruct (Hstop p eq_refl eq_refl).
Qed.

Lemma ListDocuments_stopped_sent (listParam : option ListDocumentsParam)
    (w : World C) :
  (∀ p, listParam = Some p → Check listParam ≠ Ret None) →
  sent (trace (ListDocuments listParam w).2) = (sent (trace w) ++ [])%list.
Proof.
  intros Hstop. rewrite (ListDocuments_stopped _ _ Hstop). cbn [snd].
  rewrite sent_log_check. symmetry. apply app_nil_r.
Qed.

(** X7: whatever its arguments and whatever the transport answers, no
    operation hands more than one request to the transport: nothing is sent
    twice, on no path. *)
Theorem at_most_one_request
    (regParam : option RegDocumentParam) (documentId : string)
    (queryParam : option QueryDocumentParam)
    (readParam : option ReadDocumentParam)
    (listParam : option ListDocumentsParam) (w : World C) :
  sends_at_most_one (RegisterDocument regParam) w ∧
  sends_at_most_one (PublishDocument documentId) w ∧
  sends_at_most_one (QueryDocument documentId queryParam) w ∧
  sends_at_most_one (ReadDocument documentId readParam) w ∧
  sends_at_most_one (GetImages documentId) w ∧
  sends_at_most_one (DeleteDocument documentId) w ∧
  sends_at_most_one (ListDocuments listParam) w.
Proof.
  rewrite PublishDocument_eq, QueryDocument_eq, ReadDocument_eq, GetImages_eq,
    DeleteDocument_eq.
  split_and!;
    try first [ apply dispatch_at_most_one | apply dispatch_plain_at_most_one ].
  - destruct regParam as [p|].
    + destruct (RegDocumentParam_String p) as [payload [e|]] eqn:Hs.
      * apply (sends_at_most_one_intro _ _ []); [|cbn; lia].
        unfold RegisterDocument. rewrite Hs. cbn. symmetry. apply app_nil_r.
      * rewrite (RegisterDocument_eq _ _ Hs). apply dispatch_at_most_one.
    + apply (sends_at_most_one_intro _ _ []); [|cbn; lia].
      cbn. symmetry. apply app_nil_r.
  - destruct listParam as [p|].
    + destruct (Check (Some p)) as [[e|]|msg] eqn:Hc.
      * apply (sends_at_most_one_intro _ _ []); [|cbn; lia].
        apply ListDocuments_stopped_sent. intros ? _. congruence.
      * apply (sends_at_most_one_intro _ _ [list_request p]); [|auto].
        rewrite (ListDocuments_eq _ _ Hc), dispatch_sent, sent_log_check.
        reflexivity.
      * apply (sends_at_most_one_intro _ _ []); [|cbn; lia].
        apply ListDocuments_stopped_sent. intros ? _. congruence.
    + apply (sends_at_most_one_intro _ _ []); [|cbn; lia].
      apply ListDocuments_stopped_sent. intros ? [=].
Qed.





(** Two requests that differ in their method, in one key of their query or
    in their Content-Type header are different requests. *)
Ltac differ :=
  let E := fresh "E" in
  intros [= E];
  first
    [ apply (f_equal req_method) in E; discriminate E
    | apply (f_equal (λ r, req_headers r !! http.CONTENT_TYPE)) in E;
      cbn in E; simplify_map_eq
    | apply (f_equal (λ r, req_params r !! "read")) in E;
      cbn in E; simplify_map_eq
    | apply (f_equal (λ r, req_params r !! "getImages")) in E;
      cbn in E; simplify_map_eq ].

(** X9: the seven operations never build the same request, whatever their
    arguments: the requests of any two of them differ in the method, in the
    query or in the Content-Type header, also when the document ids are the
    same or empty. *)
Theorem requests_are_distinct
    (p : RegDocumentParam) (payload : string) (lp : ListDocumentsParam)
    (id1 id2 id3 id4 id5 : string)
    (queryParam : option QueryDocumentParam)
    (readParam : option ReadDocumentParam)
    (w1 w2 w3 w4 w5 w6 w7 : World C) :
  RegDocumentParam_String p = (payload, None) →
  Check (Some lp) = Ret None →
  NoDup [ new_requests (RegisterDocument (Some p)) w1;
          new_requests (PublishDocument id1) w2;
          new_requests (QueryDocument id2 queryParam) w3;
          new_requests (ReadDocument id3 readParam) w4;
          new_requests (GetImages id4) w5;
          new_requests (DeleteDocument id5) w6;
          new_requests (ListDocuments (Some lp)) w7 ].
Proof.
  intros Hs Hc.
  rewrite (RegisterDocument_eq _ _ Hs), PublishDocument_eq, QueryDocument_eq,
    ReadDocument_eq, GetImages_eq, DeleteDocument_eq.
  rewrite !dispatch_new_requests, !dispatch_plain_new_requests,
    (ListDocuments_new_requests _ _ Hc).
  destruct queryParam as [q|], readParam as [r|];
    repeat (apply NoDup_cons; split;
            [rewrite ?not_elem_of_cons; split_and?;
             try differ; apply not_elem_of_nil|]);
    apply NoDup_nil_2.
Qed.

(** X10: the path of the request of each of the five operations on one
    document names that document: the id is read back from the path, so
    different ids give different requests. *)
Theorem document_id_is_read_back (documentId : string)
    (queryParam : option QueryDocumentParam)
    (readParam : option ReadDocumentParam) (w : World C) :
  builds (PublishDocument documentId) w
    (λ req, path_document_id (req_uri req) = Some documentId) ∧
  builds (QueryDocument documentId queryParam) w
    (λ req, path_document_id (req_uri req) = Some documentId) ∧
  builds (ReadDocument documentId readParam) w
    (λ req, path_document_id (req_uri req) = Some documentId) ∧
  builds (GetImages documentId) w
    (λ req, path_document_id (req_uri req) = Some documentId) ∧
  builds (DeleteDocument documentId) w
    (λ req, path_document_id (req_uri req) = Some documentId).
Proof.
  rewrite PublishDocument_eq, QueryDocument_eq, ReadDocument_eq, GetImages_eq,
    DeleteDocument_eq.
  split_and!;
    first [ apply dispatch_builds | apply dispatch_plain_builds ];
    reflexivity.
Qed.

Lemma dispatch_trace {T} `{!JsonResult T} (req : BceRequest) (w : World C) :
  ∃ rest,
    trace (dispatch (T:=T) req w).2
    = (trace w ++ EvSendRequest req :: rest)%list ∧
    (rest = [] ∨ ∃ resp, rest = [EvParseJsonBody resp]).
Proof.
  run_dispatch Hsend; [exists []; auto|].
  destruct (IsFail resp); cbn; [exists []; auto|].
  exists [EvParseJsonBody resp].
  destruct (json_Decode (resp_body resp) zero_value) as [result [e|]]; cbn;
    rewrite <- app_assoc; eauto.
Qed.

(** X11: with a non-nil [listParam] that the check accepts, [ListDocuments]
    calls [Check] once and before the transport: its trace is the check, then
    the request, then at most the parsing of one body. *)
Theorem ListDocuments_checks_before_sending (p : ListDocumentsParam)
    (w : World C) :
  Check (Some p) = Ret None →
  ∃ req rest,
    trace (ListDocuments (Some p) w).2
    = (trace w ++ EvCheck (Some p) :: EvSendRequest req :: rest)%list ∧
    (rest = [] ∨ ∃ resp, rest = [EvParseJsonBody resp]).
Proof.
  intros Hc. rewrite (ListDocuments_eq _ _ Hc).
  destruct (dispatch_trace (T:=ListDocumentsResp) (list_request p)
              (log (EvCheck (Some p)) (client w) w)) as (rest & E & Hrest).
  exists (list_request p), rest. split; [|exact Hrest].
  rewrite E. cbn. rewrite <- app_assoc. reflexivity.
Qed.

End DocumentApi.

(** ** The JSON codec reads back what it writes *)

#[local] Arguments Ascii.eqb : simpl never.





(** ** The claims on the test doubles *)

#[local] Existing Instance double.Double_Client.
#[local] Existing Instance double.constants.
#[local] Existing Instance double.codec.
#[local] Existing Instance double.range_Check.
#[local] Existing Instance double.raw_result.

Example register_on_failing_transport :
  (RegisterDocument (Some {| Title := "t"; Format := "pdf" |})
     double.failing).1
  = Ret (None, Some (service_error (Some double.NotFound))).
Proof. reflexivity. Qed.

Example list_on_succeeding_transport :
  (ListDocuments (Some {| Status := ""; Marker := "m1"; MaxSize := 20 |})
     double.succeeding).1
  = Ret (Some "{}", None).
Proof. reflexivity. Qed.

Example list_nil_param_panics :
  ListDocuments (ListDocumentsResp:=string) None double.succeeding
  = (Panic "invalid memory address or nil pointer dereference",
     log (EvCheck None) (client double.succeeding) double.succeeding).
Proof. reflexivity. Qed.

(** C1 on the transport that answers NotFound to every request. *)
Lemma service_failure_returns_service_error_witness :
  let p := {| Title := "t"; Format := "pdf" |} in
  let lp := {| Status := ""; Marker := "m1"; MaxSize := 20 |} in
  let w := double.failing in
  RegDocumentParam_String p = (json.Marshal p, None) ∧
  Check (Some lp) = Ret None ∧
  surfaces_service_error (RegisterDocument (Some p)) w (λ e, (None, Some e)) ∧
  surfaces_service_error (PublishDocument "abc123") w Some ∧
  surfaces_service_error (QueryDocument "abc123" None) w
    (λ e, (None, Some e)) ∧
  surfaces_service_error (ReadDocument "abc123" None) w
    (λ e, (None, Some e)) ∧
  surfaces_service_error (GetImages "abc123") w (λ e, (None, Some e)) ∧
  surfaces_service_error (DeleteDocument "abc123") w Some ∧
  surfaces_service_error (ListDocuments (Some lp)) w (λ e, (None, Some e)).
Proof.
  intros p lp w. split; [reflexivity|]. split; [reflexivity|].
  apply (service_failure_returns_service_error w p (json.Marshal p));
    reflexivity.
Defined.

(** C4 on a negative maxSize, which the range check rejects. *)
Lemma ListDocuments_invalid_param_witness :
  let lp := {| Status := ""; Marker := ""; MaxSize := -1 |} in
  let e := errors_New "invalid maxSize" in
  let w := double.succeeding in
  Check (Some lp) = Ret (Some e) ∧
  (ListDocuments (Some lp) w).1 = Ret (None, Some e) ∧
  sent (trace (ListDocuments (Some lp) w).2) = sent (trace w) ∧
  client (ListDocuments (Some lp) w).2 = client w.
Proof.
  intros lp e w. split; [reflexivity|].
  apply (ListDocuments_invalid_param (Some lp) e w). reflexivity.
Defined.

(** C5 on marker m1 and maxSize 20. *)
Lemma ListDocuments_request_witness :
  let lp := {| Status := ""; Marker := "m1"; MaxSize := 20 |} in
  Check (Some lp) = Ret None ∧
  builds (ListDocuments (Some lp)) double.succeeding (λ req,
    req_method req = http.GET ∧ req_uri req = "/v2/document/" ∧
    req_params req !! "status" = None ∧
    req_params req !! "marker" = Some "m1" ∧
    req_params req !! "maxSize" = Some "20").
Proof.
  intros lp. split; [reflexivity|].
  destruct (ListDocuments_request lp double.succeeding eq_refl)
    as (req & Hsent & Hm & Hu & Hst & Hmk & Hms & _ & _).
  exists req. split; [exact Hsent|]. split_and!; assumption.
Defined.


(** C8 on the transport that succeeds. *)
Lemma content_type_header_witness :
  let p := {| Title := "t"; Format := "pdf" |} in
  let lp := {| Status := ""; Marker := "m1"; MaxSize := 20 |} in
  let w := double.succeeding in
  let has_default req :=
    req_headers req !! http.CONTENT_TYPE = Some DEFAULT_CONTENT_TYPE in
  RegDocumentParam_String p = (json.Marshal p, None) ∧
  Check (Some lp) = Ret None ∧
  builds (RegisterDocument (Some p)) w has_default ∧
  builds (PublishDocument "abc123") w has_default ∧
  builds (QueryDocument "abc123" None) w has_default ∧
  builds (ReadDocument "abc123" None) w has_default ∧
  builds (GetImages "abc123") w has_default ∧
  builds (DeleteDocument "abc123") w has_default ∧
  builds (ListDocuments (Some lp)) w
    (λ req, req_headers req !! http.CONTENT_TYPE = None).
Proof.
  intros p lp w has_default. split; [reflexivity|]. split; [reflexivity|].
  apply (content_type_header w p (json.Marshal p)); reflexivity.
Defined.

(** C9, as the claim states it, fails: with the empty document id
    [PublishDocument] does not fail before the network call.  It hands the
    request PUT /v2/document/ to the transport, which is invoked once, and
    returns the nil error of a transport that succeeds. *)
Lemma PublishDocument_empty_id_is_sent :
  let run := PublishDocument "" double.succeeding in
  run.1 = Ret None ∧
  sent (trace run.2)
  = [ {| req_uri := "/v2/document/"; req_params := {["publish" := ""]};
         req_method := "PUT";
         req_headers :=
           {["Content-Type" := "application/json;charset=utf-8"]};
         req_body := None |} ] ∧
  double.invocations (client run.2) = 1%nat ∧
  sent (trace run.2) ≠ sent (trace double.succeeding).
Proof.
  cbv zeta. split_and!; [reflexivity.. | discriminate].
Qed.

(** ** Beyond the claims, on the test doubles *)

Example query_on_unreachable_transport :
  let run := QueryDocument "abc123" None double.unreachable in
  run.1 = Ret (None, Some (collaborator_error "connection refused")) ∧
  double.invocations (client run.2) = 1%nat ∧
  parsed (trace run.2) = [].
Proof. cbv zeta. split_and!; reflexivity. Qed.

Example images_on_silent_transport :
  (GetImages "abc123" double.silent).1
  = Ret (None, Some (collaborator_error "unexpected end of JSON input")).
Proof. reflexivity. Qed.

(** X1 on the transport that cannot reach the service. *)
Lemma transport_error_is_propagated_witness :
  let p := {| Title := "t"; Format := "pdf" |} in
  let lp := {| Status := ""; Marker := "m1"; MaxSize := 20 |} in
  let w := double.unreachable in
  RegDocumentParam_String p = (json.Marshal p, None) ∧
  Check (Some lp) = Ret None ∧
  propagates_transport_error (RegisterDocument (Some p)) w
    (λ e, (None, Some e)) ∧
  propagates_transport_error (PublishDocument "abc123") w Some ∧
  propagates_transport_error (QueryDocument "abc123" None) w
    (λ e, (None, Some e)) ∧
  propagates_transport_error (ReadDocument "abc123" None) w
    (λ e, (None, Some e)) ∧
  propagates_transport_error (GetImages "abc123") w (λ e, (None, Some e)) ∧
  propagates_transport_error (DeleteDocument "abc123") w Some ∧
  propagates_transport_error (ListDocuments (Some lp)) w
    (λ e, (None, Some e)).
Proof.
  intros p lp w. split; [reflexivity|]. split; [reflexivity|].
  apply (transport_error_is_propagated w p (json.Marshal p)); reflexivity.
Defined.

(** X2 on the transport that answers with an empty body, which does not
    decode. *)
Lemma success_response_is_decoded_witness :
  let p := {| Title := "t"; Format := "pdf" |} in
  let lp := {| Status := ""; Marker := "m1"; MaxSize := 20 |} in
  let w := double.silent in
  RegDocumentParam_String p = (json.Marshal p, None) ∧
  Check (Some lp) = Ret None ∧
  decodes_response (RegisterDocument (Some p)) w ∧
  decodes_response (QueryDocument "abc123" None) w ∧
  decodes_response (ReadDocument "abc123" None) w ∧
  decodes_response (GetImages "abc123") w ∧
  decodes_response (ListDocuments (Some lp)) w.
Proof.
  intros p lp w. split; [reflexivity|]. split; [reflexivity|].
  apply (success_response_is_decoded w p (json.Marshal p)); reflexivity.
Defined.

(** X4 on the serializer that refuses every parameter object. *)
Lemma RegisterDocument_serialization_error_witness :
  let p := {| Title := "t"; Format := "pdf" |} in
  let e := collaborator_error "json: unsupported value" in
  let w := double.succeeding in
  RegDocumentParam_String (ParamCodec := double.refusing_codec) p
  = ("", Some e) ∧
  RegisterDocument (H0 := double.refusing_codec) (Some p) w
  = (Ret (None, Some e), w) ∧
  new_requests (RegisterDocument (H0 := double.refusing_codec) (Some p)) w
  = [].
Proof.
  intros p e w. split; [reflexivity|].
  apply (RegisterDocument_serialization_error p "" e w). reflexivity.
Defined.

(** X9 on one document id for the five operations on a document. *)
Lemma requests_are_distinct_witness :
  let p := {| Title := "t"; Format := "pdf" |} in
  let lp := {| Status := ""; Marker := ""; MaxSize := 0 |} in
  let w := double.succeeding in
  RegDocumentParam_String p = (json.Marshal p, None) ∧
  Check (Some lp) = Ret None ∧
  NoDup [ new_requests (RegisterDocument (Some p)) w;
          new_requests (PublishDocument "") w;
          new_requests (QueryDocument "" None) w;
          new_requests (ReadDocument "" None) w;
          new_requests (GetImages "") w;
          new_requests (DeleteDocument "") w;
          new_requests (ListDocuments (Some lp)) w ].
Proof.
  intros p lp w. split; [reflexivity|]. split; [reflexivity|].
  apply (requests_are_distinct p (json.Marshal p) lp); reflexivity.
Defined.

(** X11 on marker m1 and maxSize 20. *)
Lemma ListDocuments_checks_before_sending_witness :
  let lp := {| Status := ""; Marker := "m1"; MaxSize := 20 |} in
  let w := double.succeeding in
  Check (Some lp) = Ret None ∧
  ∃ req rest,
    trace (ListDocuments (Some lp) w).2
    = (trace w ++ EvCheck (Some lp) :: EvSendRequest req :: rest)%list ∧
    (rest = [] ∨ ∃ resp, rest = [EvParseJsonBody resp]).
Proof.
  intros lp w. split; [reflexivity|].
  apply (ListDocuments_checks_before_sending lp w). reflexivity.
Defined.
